(** * loadModule: loading CJS, ESM and TypeScript modules by extension

    A shallow embedding of [packages/common/src/load-module.ts].

    The function under study is [loadModule], an [async] function that
    dispatches on [path.extname(modulePath)] and talks to four collaborators:
    the synchronous [require], the dynamic [import()], [registerTsProject] and
    the handle that [registerTsProject] returns.  The embedding keeps that
    shape: the body of [loadModule] is a program over four effects, written
    with [try]/[catch]/[finally] combinators, and an interpreter runs such a
    program against a runtime that answers the effects, recording every call.

    Scope of the value model: exported values and thrown values are plain
    data (undefined, null, booleans, integral numbers, NaN, strings, records
    of data properties).  Accessor properties, prototype chains, functions and
    thenables are outside the model. *)

From Stdlib Require Import Ascii String List ZArith Bool Arith Lia.
Import ListNotations.
Open Scope string_scope.

(** ** JavaScript values *)

#[warnings="-register-all"]
Inductive value : Type :=
| VUndefined
| VNull
| VBool (b : bool)
| VNumber (n : Z)
| VNaN
| VString (s : string)
| VObject (props : list (string * value)).

(** The result of evaluating an expression or of settling a promise: a
    value, a thrown value, or nothing at all (a [require] that never returns,
    an [import()] whose promise stays pending). *)
Inductive completion (A : Type) : Type :=
| Normal (a : A)
| Thrown (e : value)
| Stuck.

Arguments Normal {A} a.
Arguments Thrown {A} e.
Arguments Stuck {A}.

(** ToBoolean: what the left operand of [||] is tested with. *)
Definition truthy (v : value) : bool :=
  match v with
  | VUndefined | VNull | VNaN => false
  | VBool b => b
  | VNumber n => negb (n =? 0)%Z
  | VString s => negb (s =? "")
  | VObject _ => true
  end.

Definition nullish (v : value) : bool :=
  match v with
  | VUndefined | VNull => true
  | _ => false
  end.


Fixpoint lookup (key : string) (props : list (string * value)) : option value :=
  match props with
  | [] => None
  | (k, v) :: rest => if k =? key then Some v else lookup key rest
  end.


Definition type_name (v : value) : string :=
  match v with
  | VUndefined => "undefined"
  | VNull => "null"
  | _ => "object"
  end.

(** The TypeError raised by a property read on [undefined] or [null].  It
    carries no [code] property. *)
Definition TypeError_cannot_read (v : value) (key : string) : value :=
  VObject [("name", VString "TypeError");
           ("message", VString ("Cannot read properties of " ++ type_name v
                                ++ " (reading '" ++ key ++ "')"))].

(** The member expression [v.key]: throws on [undefined] and [null], gives
    [undefined] for a property that is not there. *)
Definition member (v : value) (key : string) : completion value :=
  match v with
  | VUndefined | VNull => Thrown (TypeError_cannot_read v key)
  | VObject props =>
      match lookup key props with
      | Some x => Normal x
      | None => Normal VUndefined
      end
  | _ => Normal VUndefined
  end.

(** [v === s] for a string literal [s]. *)
Definition strict_equals_string (v : value) (s : string) : bool :=
  match v with
  | VString t => t =? s
  | _ => false
  end.

(** ** The collaborators *)

(** A [URL] object, as [url.pathToFileURL] returns it. *)
Record URL : Type := mkURL { href : string }.

(** [node:path] and [node:url]: the two functions [loadModule] calls. *)
Class NodeLib : Type := {
  extname : string -> string;
  pathToFileURL : string -> URL
}.

(** What [registerTsProject] returns: a function of no argument.  The model
    names it by a number; calling it is the [Unregister] effect. *)
Definition handle : Type := nat.

Inductive effect : Type -> Type :=
| Require (modulePath : string) : effect (completion value)
| DynamicImport (modulePath : URL) : effect (completion value)
| RegisterTsProject (tsConfig : string) : effect handle
| Unregister (h : handle) : effect unit.

(** ** Programs *)

Inductive prog (A : Type) : Type :=
| Ret (a : A)
| Vis (X : Type) (e : effect X) (k : X -> prog A).

Arguments Ret {A} a.
Arguments Vis {A X} e k.

Fixpoint pbind {A B : Type} (m : prog A) (f : A -> prog B) : prog B :=
  match m with
  | Ret a => f a
  | Vis e k => Vis e (fun x => pbind (k x) f)
  end.

(** A JavaScript computation: a program that ends in a completion. *)
Definition js (A : Type) : Type := prog (completion A).

Definition ret {A : Type} (a : A) : js A := Ret (Normal a).

Definition throw {A : Type} (e : value) : js A := Ret (Thrown e).

Definition lift {A : Type} (c : completion A) : js A := Ret c.

Definition bind {A B : Type} (m : js A) (f : A -> js B) : js B :=
  pbind m (fun c =>
    match c with
    | Normal a => f a
    | Thrown e => Ret (Thrown e)
    | Stuck => Ret Stuck
    end).

Notation "x <- m ;; k" := (bind m (fun x => k))
  (at level 61, m at next level, right associativity).

(** [try { body } catch (e) { handler }] *)
Definition try_catch {A : Type} (body : js A) (handler : value -> js A) : js A :=
  pbind body (fun c =>
    match c with
    | Thrown e => handler e
    | _ => Ret c
    end).

(** [try { body } finally { cleanup }]: the cleanup runs after a normal or an
    abrupt completion of the body and keeps that completion unless it is
    abrupt itself; a body that never completes never reaches it. *)
Definition try_finally {A : Type} (body : js A) (cleanup : js unit) : js A :=
  pbind body (fun c =>
    match c with
    | Stuck => Ret Stuck
    | _ =>
        pbind cleanup (fun c' =>
          match c' with
          | Normal _ => Ret c
          | Thrown e' => Ret (Thrown e')
          | Stuck => Ret Stuck
          end)
    end).

Definition require (modulePath : string) : js value :=
  Vis (Require modulePath) Ret.

Definition registerTsProject (tsConfig : string) : js handle :=
  Vis (RegisterTsProject tsConfig) ret.

(** Calling the function that [registerTsProject] returned. *)
Definition call (unregisterTsProject : handle) : js unit :=
  Vis (Unregister unregisterTsProject) ret.

(** [loadEsmModule]: the dynamic [import(modulePath)], built through the
    Function constructor.  It returns a promise; the model performs the
    import when the promise is awaited, which every caller does at once. *)
Definition loadEsmModule (modulePath : URL) : effect (completion value) :=
  DynamicImport modulePath.

Definition await (promise : effect (completion value)) : js value :=
  Vis promise Ret.

(** ** loadModule *)

Definition loadModule {lib : NodeLib} (modulePath tsConfig : string) : js value :=
  let ext := extname modulePath in
  if ext =? ".mjs" then
    ns <- await (loadEsmModule (pathToFileURL modulePath)) ;;
    lift (member ns "default")
  else if ext =? ".cjs" then
    require modulePath
  else if ext =? ".ts" then
    unregisterTsProject <- registerTsProject tsConfig ;;
    try_finally
      (try_catch
         (m <- require modulePath ;;
          d <- lift (member m "default") ;;
          if truthy d then ret d else require modulePath)
         (fun e =>
            code <- lift (member e "code") ;;
            if strict_equals_string code "ERR_REQUIRE_ESM" then
              ns <- await (loadEsmModule (pathToFileURL modulePath)) ;;
              lift (member ns "default")
            else throw e))
      (call unregisterTsProject)
  else
    try_catch
      (require modulePath)
      (fun e =>
         code <- lift (member e "code") ;;
         if strict_equals_string code "ERR_REQUIRE_ESM" then
           ns <- await (loadEsmModule (pathToFileURL modulePath)) ;;
           lift (member ns "default")
         else throw e).

(** ** The registrar *)

(** Modelled from the spec: [./register-ts-project] is not part of the
    sources at hand.  The registrar exposes [register(descriptor)], which
    returns a handle, and the handle exposes [deregister()].  Its state is the
    list of the registrations that are active, each under the handle that
    removes it; a new registration gets a handle no active one uses. *)
Definition registry : Type := list (handle * string).

(** Modelled from the spec: the handle of the next registration of
    [./register-ts-project], one that no active registration has. *)
Definition fresh_handle (reg : registry) : handle :=
  S (list_max (map fst reg)).

(** Modelled from the spec: [register(descriptor)] of
    [./register-ts-project], which installs a registration and returns its
    handle. *)
Definition register (tsConfig : string) (reg : registry) : handle * registry :=
  let h := fresh_handle reg in (h, (h, tsConfig) :: reg).

(** Modelled from the spec: [deregister()] on a handle of
    [./register-ts-project], which removes the registration made under it. *)
Definition deregister (h : handle) (reg : registry) : registry :=
  filter (fun r => negb (fst r =? h)%nat) reg.

(** ** Running a program *)

(** The module system of the runtime.  A synchronous load and a dynamic
    import each answer with a completion and may change the state of the
    module system; what they answer may depend on the registrations that are
    active, which they only read. *)
Record runtime (S : Type) : Type := {
  rt_require : string -> registry -> S -> completion value * S;
  rt_import : URL -> registry -> S -> completion value * S
}.

Arguments rt_require {S} _ _ _ _.
Arguments rt_import {S} _ _ _ _.

Record world (S : Type) : Type := {
  registrar : registry;
  modules : S
}.

Arguments registrar {S} _.
Arguments modules {S} _.

(** One entry per call made to a collaborator, with the answer it got. *)
Inductive obs : Type :=
| ObsRequire (modulePath : string) (answer : completion value)
| ObsImport (modulePath : URL) (answer : completion value)
| ObsRegister (tsConfig : string) (h : handle)
| ObsUnregister (h : handle).

Record run (S A : Type) : Type := {
  outcome : A;
  trace : list obs;
  final : world S
}.

Arguments outcome {S A} _.
Arguments trace {S A} _.
Arguments final {S A} _.

Definition perform {S X : Type} (rt : runtime S) (e : effect X) (w : world S)
  : X * obs * world S :=
  match e in effect X return X * obs * world S with
  | Require p =>
      let '(a, s) := rt_require rt p (registrar w) (modules w) in
      (a, ObsRequire p a, {| registrar := registrar w; modules := s |})
  | DynamicImport u =>
      let '(a, s) := rt_import rt u (registrar w) (modules w) in
      (a, ObsImport u a, {| registrar := registrar w; modules := s |})
  | RegisterTsProject tsConfig =>
      let '(h, reg) := register tsConfig (registrar w) in
      (h, ObsRegister tsConfig h, {| registrar := reg; modules := modules w |})
  | Unregister h =>
      (tt, ObsUnregister h,
       {| registrar := deregister h (registrar w); modules := modules w |})
  end.

Fixpoint exec {S A : Type} (rt : runtime S) (m : prog A) (w : world S) : run S A :=
  match m with
  | Ret a => {| outcome := a; trace := []; final := w |}
  | Vis e k =>
      let '(x, o, w1) := perform rt e w in
      let r := exec rt (k x) w1 in
      {| outcome := outcome r; trace := o :: trace r; final := final r |}
  end.

(** ** Reading a trace *)

(** The answers of the synchronous loads, in the order they were made. *)
Fixpoint sync_loads (tr : list obs) : list (completion value) :=
  match tr with
  | [] => []
  | ObsRequire _ a :: rest => a :: sync_loads rest
  | _ :: rest => sync_loads rest
  end.

(** The dynamic imports, in the order they were made. *)
Fixpoint async_loads (tr : list obs) : list (URL * completion value) :=
  match tr with
  | [] => []
  | ObsImport u a :: rest => (u, a) :: async_loads rest
  | _ :: rest => async_loads rest
  end.

Definition is_registrar_obs (o : obs) : bool :=
  match o with
  | ObsRegister _ _ | ObsUnregister _ => true
  | _ => false
  end.

(** The calls to the registrar and to handles it returned. *)
Definition registrar_calls (tr : list obs) : list obs :=
  filter is_registrar_obs tr.

(** What a caller gets out of a dynamic import that answered [a]: the
    ["default"] member of the namespace it produced. *)
Definition default_of (a : completion value) : completion value :=
  match a with
  | Normal ns => member ns "default"
  | Thrown e => Thrown e
  | Stuck => Stuck
  end.

(** ** The '.ts' branch without its registration step *)

(** Follows the spec's words for an unrecognized extension, "the
    source-language fallback path minus the registration step": the '.ts'
    case of [loadModule] with [registerTsProject] and the [finally] block
    taken out.  It is compared with the default case of [loadModule]. *)
Definition tsBranchWithoutRegistration {lib : NodeLib} (modulePath : string) : js value :=
  try_catch
    (m <- require modulePath ;;
     d <- lift (member m "default") ;;
     if truthy d then ret d else require modulePath)
    (fun e =>
       code <- lift (member e "code") ;;
       if strict_equals_string code "ERR_REQUIRE_ESM" then
         ns <- await (loadEsmModule (pathToFileURL modulePath)) ;;
         lift (member ns "default")
       else throw e).

(** ** Programs that leave the registrar alone *)

Inductive registrar_free {A : Type} : prog A -> Prop :=
| registrar_free_Ret (a : A) :
    registrar_free (Ret a)
| registrar_free_Require (p : string) (k : completion value -> prog A) :
    (forall x, registrar_free (k x)) ->
    registrar_free (Vis (Require p) k)
| registrar_free_Import (u : URL) (k : completion value -> prog A) :
    (forall x, registrar_free (k x)) ->
    registrar_free (Vis (DynamicImport u) k).

(** ** Two readings of the loader that the code does not follow *)


(** "For a path whose extension is none of '.mjs', '.cjs', '.ts', the same
    returned value and the same error behaviour as the '.ts' branch with the
    registration step removed", for one call of [loadModule]. *)
Definition same_as_ts_branch_without_registration {lib : NodeLib} {S : Type}
  (rt : runtime S) (modulePath tsConfig : string) (w : world S) : Prop :=
  extname modulePath <> ".mjs" ->
  extname modulePath <> ".cjs" ->
  extname modulePath <> ".ts" ->
  outcome (exec rt (loadModule modulePath tsConfig) w)
  = outcome (exec rt (tsBranchWithoutRegistration modulePath) w).

(** ** An unchanged module *)

(** The module at [modulePath] does not change: what a load of it answers,
    by either primitive, does not depend on the state the module system is
    in, that is, on what was loaded before.  It may depend on the
    registrations that are active when the load is made, as it does for a
    '.ts' file that can only be compiled under a registration. *)
Definition module_unchanged {lib : NodeLib} {S : Type} (rt : runtime S)
  (modulePath : string) : Prop :=
  (forall reg s s',
      fst (rt_require rt modulePath reg s) = fst (rt_require rt modulePath reg s'))
  /\ (forall reg s s',
      fst (rt_import rt (pathToFileURL modulePath) reg s)
      = fst (rt_import rt (pathToFileURL modulePath) reg s')).

(** ** A small runtime to run examples on *)

(** The text from the last dot on, or the empty string: what [path.extname]
    gives for a plain file name such as [a.ts]. *)
Fixpoint suffix_from_last_dot (s : string) : string :=
  match s with
  | EmptyString => ""
  | String c rest =>
      let r := suffix_from_last_dot rest in
      if r =? "" then (if Ascii.eqb c "."%char then s else "") else r
  end.

Definition file_node : NodeLib := {|
  extname := suffix_from_last_dot;
  pathToFileURL := fun p => mkURL ("file://" ++ p)
|}.

(** A file is a CommonJS module with its [module.exports], an ES module with
    its namespace object, or a file whose evaluation throws. *)
Inductive file : Type :=
| CommonJS (exports : value)
| ESModule (namespace : value)
| Failing (error : value).

Definition disk : Type := list (string * file).

Fixpoint find_file (p : string) (d : disk) : option file :=
  match d with
  | [] => None
  | (q, f) :: rest => if q =? p then Some f else find_file p rest
  end.

Fixpoint find_url (u : URL) (d : disk) : option file :=
  match d with
  | [] => None
  | (q, f) :: rest =>
      if href (pathToFileURL (NodeLib := file_node) q) =? href u
      then Some f else find_url u rest
  end.

Definition ERR_REQUIRE_ESM : value :=
  VObject [("code", VString "ERR_REQUIRE_ESM");
           ("message", VString "require() of ES Module not supported")].

Definition MODULE_NOT_FOUND : value :=
  VObject [("code", VString "MODULE_NOT_FOUND");
           ("message", VString "Cannot find module")].

Definition disk_runtime (d : disk) : runtime unit := {|
  rt_require := fun p _ s =>
    match find_file p d with
    | Some (CommonJS v) => (Normal v, s)
    | Some (ESModule _) => (Thrown ERR_REQUIRE_ESM, s)
    | Some (Failing e) => (Thrown e, s)
    | None => (Thrown MODULE_NOT_FOUND, s)
    end;
  rt_import := fun u _ s =>
    match find_url u d with
    | Some (CommonJS v) => (Normal (VObject [("default", v)]), s)
    | Some (ESModule ns) => (Normal ns, s)
    | Some (Failing e) => (Thrown e, s)
    | None => (Thrown MODULE_NOT_FOUND, s)
    end
|}.

Definition empty_world : world unit := {| registrar := []; modules := tt |}.

Definition sample_disk : disk :=
  [ ("app.config.ts",
     CommonJS (VObject [("__esModule", VBool true);
                        ("default", VObject [("port", VNumber 4200)])]));
    ("named.config.ts",
     CommonJS (VObject [("port", VNumber 8080)]));
    ("zero.config.ts",
     CommonJS (VObject [("__esModule", VBool true);
                        ("default", VNumber 0)]));
    ("esm.config.ts",
     ESModule (VObject [("default", VString "esm-ts")]));
    ("broken.config.ts",
     Failing (VObject [("code", VString "ERR_SYNTAX")]));
    ("webpack.config.js",
     CommonJS (VObject [("default", VObject [("mode", VString "production")])]));
    ("esm.config.js",
     ESModule (VObject [("default", VString "esm-js")]));
    ("broken.config.js",
     Failing (VObject [("code", VString "ERR_SYNTAX")]));
    ("plugin.mjs",
     ESModule (VObject [("default", VString "plugin")]));
    ("named.mjs",
     ESModule (VObject [("helper", VNumber 1)]));
    ("legacy.cjs",
     CommonJS (VObject [("default", VString "kept-wrapped")])) ].

Definition sample_run (modulePath : string) : run unit (completion value) :=
  exec (disk_runtime sample_disk)
       (loadModule (lib := file_node) modulePath "tsconfig.json")
       empty_world.


(** ** More ways to read a trace *)

(** The paths handed to the synchronous load, in the order of the calls. *)
Fixpoint required_paths (tr : list obs) : list string :=
  match tr with
  | [] => []
  | ObsRequire p _ :: rest => p :: required_paths rest
  | _ :: rest => required_paths rest
  end.

(** The locators handed to the dynamic import, in the order of the calls. *)
Definition imported_urls (tr : list obs) : list URL :=
  map fst (async_loads tr).

(** ** Runtimes for the edge cases *)

(** Modules that evaluate to [null], or throw [undefined], when loaded. *)
Definition edge_disk : disk :=
  [ ("null.config.ts", CommonJS VNull);
    ("throws.config.js", Failing VUndefined);
    ("throws.config.ts", Failing VNull) ].

Definition edge_run (modulePath : string) : run unit (completion value) :=
  exec (disk_runtime edge_disk)
       (loadModule (lib := file_node) modulePath "tsconfig.json")
       empty_world.

(** A runtime whose modules are all ES modules whose import never settles:
    the synchronous load reports the format mismatch and the promise of the
    dynamic import stays pending. *)
Definition pending_runtime : runtime unit := {|
  rt_require := fun _ _ s => (Thrown ERR_REQUIRE_ESM, s);
  rt_import := fun _ _ s => (Stuck, s)
|}.

(** ** A runtime that needs the registration *)

Definition SyntaxError_unexpected_token : value :=
  VObject [("name", VString "SyntaxError");
           ("message", VString "Unexpected token")].

Definition no_registration (reg : registry) : bool :=
  match reg with
  | [] => true
  | _ :: _ => false
  end.

(** The modules of a disk, with two differences: a '.ts' file can be
    required only while a registration is active, and fails to parse
    otherwise; and the module system has a state, the number of loads it has
    served. *)
Definition ts_node_runtime (d : disk) : runtime nat := {|
  rt_require := fun p reg n =>
    if (suffix_from_last_dot p =? ".ts") && no_registration reg
    then (Thrown SyntaxError_unexpected_token, Datatypes.S n)
    else (fst (rt_require (disk_runtime d) p reg tt), Datatypes.S n);
  rt_import := fun u reg n =>
    (fst (rt_import (disk_runtime d) u reg tt), Datatypes.S n)
|}.

Definition fresh_world : world nat := {| registrar := []; modules := 0 |}.

(** * Properties *)

#[local] Arguments member _ _ : simpl never.
#[local] Arguments truthy _ : simpl never.
#[local] Arguments strict_equals_string _ _ : simpl never.
#[local] Arguments deregister _ _ : simpl never.
#[local] Arguments fresh_handle _ : simpl never.

(** ** The registrar model *)

Lemma filter_keeps_all {A : Type} (f : A -> bool) (l : list A) :
  (forall x, In x l -> f x = true) -> filter f l = l.
Proof.
  induction l as [|a l IH]; intros Hall; simpl.
  - reflexivity.
  - rewrite (Hall a (or_introl eq_refl)).
    f_equal. apply IH. intros x Hx. apply Hall. right. exact Hx.
Qed.

Lemma fresh_handle_unused (reg : registry) (r : handle * string) :
  In r reg -> fst r <> fresh_handle reg.
Proof.
  intros Hin Heq.
  assert (Hle : fst r <= list_max (map fst reg)).
  { assert (Hall : Forall (fun k => k <= list_max (map fst reg)) (map fst reg)).
    { apply list_max_le. apply Nat.le_refl. }
    rewrite Forall_forall in Hall. apply Hall. apply in_map. exact Hin. }
  unfold fresh_handle in Heq. lia.
Qed.

(** Releasing a registration right after it was made gives back the
    registrar as it was. *)
Lemma deregister_register (tsConfig : string) (reg : registry) :
  deregister (fst (register tsConfig reg)) (snd (register tsConfig reg)) = reg.
Proof.
  unfold register, deregister. simpl.
  rewrite Nat.eqb_refl. simpl.
  apply filter_keeps_all. intros r Hin.
  apply negb_true_iff, Nat.eqb_neq, fresh_handle_unused, Hin.
Qed.

(** ** Member reads *)

(** The only thing a member read throws is the TypeError for [undefined] and
    [null], and that error has no [code]. *)
Lemma member_thrown_has_no_code (v : value) (key : string) (e : value) :
  member v key = Thrown e -> member e "code" = Normal VUndefined.
Proof.
  unfold member at 1.
  destruct v as [| | | | | |props]; try discriminate.
  - intros [= <-]. reflexivity.
  - intros [= <-]. reflexivity.
  - destruct (lookup key props); discriminate.
Qed.


(** ** Which case of the switch runs *)

Section Dispatch.

Context {lib : NodeLib}.

Lemma loadModule_mjs (modulePath tsConfig : string) :
  extname modulePath = ".mjs" ->
  loadModule modulePath tsConfig =
  (ns <- await (loadEsmModule (pathToFileURL modulePath)) ;;
   lift (member ns "default")).
Proof.
  intros Hext. unfold loadModule. rewrite Hext. reflexivity.
Qed.

Lemma loadModule_cjs (modulePath tsConfig : string) :
  extname modulePath = ".cjs" ->
  loadModule modulePath tsConfig = require modulePath.
Proof.
  intros Hext. unfold loadModule. rewrite Hext. reflexivity.
Qed.

Lemma loadModule_ts (modulePath tsConfig : string) :
  extname modulePath = ".ts" ->
  loadModule modulePath tsConfig =
  (unregisterTsProject <- registerTsProject tsConfig ;;
   try_finally (tsBranchWithoutRegistration modulePath)
               (call unregisterTsProject)).
Proof.
  intros Hext. unfold loadModule. rewrite Hext. reflexivity.
Qed.

Lemma loadModule_other (modulePath tsConfig : string) :
  extname modulePath <> ".mjs" ->
  extname modulePath <> ".cjs" ->
  extname modulePath <> ".ts" ->
  loadModule modulePath tsConfig =
  try_catch
    (require modulePath)
    (fun e =>
       code <- lift (member e "code") ;;
       if strict_equals_string code "ERR_REQUIRE_ESM" then
         ns <- await (loadEsmModule (pathToFileURL modulePath)) ;;
         lift (member ns "default")
       else throw e).
Proof.
  intros Hmjs Hcjs Hts. unfold loadModule.
  apply String.eqb_neq in Hmjs, Hcjs, Hts.
  rewrite Hmjs, Hcjs, Hts. reflexivity.
Qed.

(** The dispatch compares the extension exactly: an upper-case '.MJS' is not
    the '.mjs' case; it is loaded synchronously first, as any other
    extension is. *)
Lemma loadModule_upper_case_mjs (modulePath tsConfig : string) :
  extname modulePath = ".MJS" ->
  loadModule modulePath tsConfig =
  try_catch
    (require modulePath)
    (fun e =>
       code <- lift (member e "code") ;;
       if strict_equals_string code "ERR_REQUIRE_ESM" then
         ns <- await (loadEsmModule (pathToFileURL modulePath)) ;;
         lift (member ns "default")
       else throw e).
Proof.
  intros Hext. apply loadModule_other; rewrite Hext; discriminate.
Qed.

End Dispatch.

(** ** Running the combinators *)

Section Frame.

Context {S : Type} (rt : runtime S).

Lemma registrar_free_pbind {A B : Type} (m : prog A) (f : A -> prog B) :
  registrar_free m -> (forall a, registrar_free (f a)) ->
  registrar_free (pbind m f).
Proof.
  intros Hm Hf. induction Hm as [a|p k _ IH|u k _ IH]; simpl.
  - apply Hf.
  - constructor. exact IH.
  - constructor. exact IH.
Qed.

(** A program without registrar effects makes no call to the registrar and
    leaves its state as it found it. *)
Lemma registrar_free_exec {A : Type} (m : prog A) :
  registrar_free m ->
  forall w, registrar_calls (trace (exec rt m w)) = []
            /\ registrar (final (exec rt m w)) = registrar w.
Proof.
  induction 1 as [a|p k _ IH|u k _ IH]; intros w; cbn.
  - split; reflexivity.
  - destruct (rt_require rt p (registrar w) (modules w)) as [a s]. cbn.
    apply (IH a {| registrar := registrar w; modules := s |}).
  - destruct (rt_import rt u (registrar w) (modules w)) as [a s]. cbn.
    apply (IH a {| registrar := registrar w; modules := s |}).
Qed.

(** [try { body } finally { unregisterTsProject() }]: the handle is called
    last, exactly when the body completes. *)
Lemma exec_try_finally_call (body : js value) (h : handle) (w : world S) :
  exec rt (try_finally body (call h)) w =
  match outcome (exec rt body w) with
  | Stuck => {| outcome := Stuck;
                trace := trace (exec rt body w);
                final := final (exec rt body w) |}
  | c => {| outcome := c;
            trace := trace (exec rt body w) ++ [ObsUnregister h];
            final := {| registrar :=
                          deregister h (registrar (final (exec rt body w)));
                        modules := modules (final (exec rt body w)) |} |}
  end.
Proof.
  revert w. induction body as [c|X e k IH]; intros w.
  - destruct c; reflexivity.
  - cbn. destruct (perform rt e w) as [[x o] w1]. cbn.
    change (pbind (k x) _) with (try_finally (k x) (call h)).
    rewrite IH. destruct (outcome (exec rt (k x) w1)); reflexivity.
Qed.

Lemma exec_registerTsProject {A : Type} (tsConfig : string)
  (k : handle -> js A) (w : world S) :
  exec rt (h <- registerTsProject tsConfig ;; k h) w =
  let h0 := fst (register tsConfig (registrar w)) in
  let r := exec rt (k h0)
             {| registrar := snd (register tsConfig (registrar w));
                modules := modules w |} in
  {| outcome := outcome r;
     trace := ObsRegister tsConfig h0 :: trace r;
     final := final r |}.
Proof. reflexivity. Qed.

End Frame.

(** ** Case analysis on the answers of the runtime *)

Ltac step :=
  match goal with
  | |- context [rt_require ?rt ?p ?r ?st] =>
      destruct (rt_require rt p r st) as [[?m|?e|] ?s] eqn:?
  | |- context [rt_import ?rt ?u ?r ?st] =>
      destruct (rt_import rt u r st) as [[?ns|?e|] ?s] eqn:?
  | |- context [member ?v ?k] =>
      destruct (member v k) as [?d|?e|] eqn:?
  | |- context [truthy ?d] =>
      destruct (truthy d) eqn:?
  | |- context [strict_equals_string ?c ?lit] =>
      destruct (strict_equals_string c lit) eqn:?
  end.

Ltac run_cases := cbn; repeat (step; cbn).

Ltac tidy :=
  intros;
  repeat match goal with
         | H : _ /\ _ |- _ => destruct H
         | H : _ \/ _ |- _ => destruct H
         | H : False |- _ => destruct H
         | H : _ :: _ = _ :: _ |- _ => injection H as ? ?
         | H : Normal _ = Normal _ |- _ => injection H as ?
         | H : Thrown _ = Thrown _ |- _ => injection H as ?
         | H : (_, _) = (_, _) |- _ => injection H as ? ?
         end;
  subst; try discriminate; try congruence.

(** A TypeError raised by a member read is never taken for the
    format-mismatch signal. *)
Ltac no_code :=
  match goal with
  | H1 : member ?v ?k = Thrown ?e,
    H2 : member ?e "code" = Normal ?d,
    H3 : strict_equals_string ?d _ = true |- _ =>
      exfalso; rewrite (member_thrown_has_no_code _ _ _ H1) in H2;
      injection H2 as <-; cbv in H3; discriminate H3
  end.



(** ** The loader *)

Section Loader.

Context {lib : NodeLib} {S : Type} (rt : runtime S).

Lemma tsBranchWithoutRegistration_registrar_free (modulePath : string) :
  registrar_free (tsBranchWithoutRegistration modulePath).
Proof.
  unfold tsBranchWithoutRegistration, try_catch, bind, require, await, lift,
    ret, throw.
  repeat first
    [ apply registrar_free_pbind
    | constructor
    | intro
    | match goal with
      | |- registrar_free (match ?x with _ => _ end) => destruct x
      | |- registrar_free (if ?x then _ else _) => destruct x
      end ].
Qed.

Lemma loadModule_registrar_free (modulePath tsConfig : string) :
  extname modulePath <> ".ts" ->
  registrar_free (loadModule modulePath tsConfig).
Proof.
  intros Hts. apply String.eqb_neq in Hts.
  unfold loadModule. rewrite Hts.
  destruct (extname modulePath =? ".mjs");
    [|destruct (extname modulePath =? ".cjs")].
  all: unfold try_catch, bind, require, await, lift, ret, throw.
  all: repeat first
    [ apply registrar_free_pbind
    | constructor
    | intro
    | match goal with
      | |- registrar_free (match ?x with _ => _ end) => destruct x
      | |- registrar_free (if ?x then _ else _) => destruct x
      end ].
Qed.


(** C2.  For a path with extension '.ts', whenever [loadModule] exits, by a
    normal return, by the return of the ESM fallback or by a propagated
    exception, its calls read: [registerTsProject(tsConfig)] first, no other
    call to the registrar in between, the returned handle last; and the
    registrar holds the registrations it held before the call. *)
Theorem loadModule_ts_releases_registration
  (modulePath tsConfig : string) (w : world S) :
  extname modulePath = ".ts" ->
  outcome (exec rt (loadModule modulePath tsConfig) w) <> Stuck ->
  exists h mid,
    trace (exec rt (loadModule modulePath tsConfig) w)
    = (ObsRegister tsConfig h :: mid ++ [ObsUnregister h])%list
    /\ registrar_calls mid = []
    /\ registrar (final (exec rt (loadModule modulePath tsConfig) w))
       = registrar w.
Proof.
  intros Hext. rewrite (loadModule_ts _ _ Hext).
  rewrite exec_registerTsProject. cbv zeta.
  rewrite exec_try_finally_call.
  set (w1 := {| registrar := _ ; modules := modules w |}).
  destruct (registrar_free_exec rt _
              (tsBranchWithoutRegistration_registrar_free modulePath) w1)
    as [Hquiet Hframe].
  set (rb := exec rt (tsBranchWithoutRegistration modulePath) w1) in *.
  intros Hexit.
  exists (fst (register tsConfig (registrar w))), (trace rb).
  destruct (outcome rb) eqn:Hout; cbn [outcome trace final registrar] in *.
  - repeat split; try assumption. rewrite Hframe. apply deregister_register.
  - repeat split; try assumption. rewrite Hframe. apply deregister_register.
  - congruence.
Qed.

(** C3 (amended).  For a path whose extension is none of '.mjs', '.cjs' and
    '.ts': when the synchronous load does not succeed, [loadModule] runs
    exactly as the '.ts' branch without its registration step does (same
    calls, same result, same error); when the synchronous load succeeds with
    [m], it makes that one call and returns [m] itself, with no preference
    for a "default" field. *)
Theorem loadModule_default_case_vs_ts_case
  (modulePath tsConfig : string) (w : world S) :
  extname modulePath <> ".mjs" ->
  extname modulePath <> ".cjs" ->
  extname modulePath <> ".ts" ->
  match fst (rt_require rt modulePath (registrar w) (modules w)) with
  | Normal m =>
      outcome (exec rt (loadModule modulePath tsConfig) w) = Normal m
      /\ trace (exec rt (loadModule modulePath tsConfig) w)
         = [ObsRequire modulePath (Normal m)]
  | _ =>
      exec rt (loadModule modulePath tsConfig) w
      = exec rt (tsBranchWithoutRegistration modulePath) w
  end.
Proof.
  intros Hmjs Hcjs Hts. rewrite (loadModule_other _ _ Hmjs Hcjs Hts).
  unfold tsBranchWithoutRegistration. cbn.
  destruct (rt_require rt modulePath (registrar w) (modules w)) as [[m|e|] s];
    cbn; [split; reflexivity | reflexivity | reflexivity].
Qed.

(** X9.  In the '.ts' and default branches, a synchronous load that throws
    a value [e] whose [code] can be read, which leaves out [null] and
    [undefined] only, and is not 'ERR_REQUIRE_ESM' makes [loadModule] throw
    that same [e]; that load is the last one made and no dynamic import is
    attempted.  In every run at most one dynamic import is made, and only
    after a synchronous load threw an error whose [code] is
    'ERR_REQUIRE_ESM'. *)
Theorem loadModule_rethrows_other_errors
  (modulePath tsConfig : string) (w : world S) :
  extname modulePath <> ".mjs" ->
  extname modulePath <> ".cjs" ->
  (forall e code,
      In (Thrown e)
         (sync_loads (trace (exec rt (loadModule modulePath tsConfig) w))) ->
      member e "code" = Normal code ->
      strict_equals_string code "ERR_REQUIRE_ESM" = false ->
      outcome (exec rt (loadModule modulePath tsConfig) w) = Thrown e
      /\ (exists before,
            sync_loads (trace (exec rt (loadModule modulePath tsConfig) w))
            = (before ++ [Thrown e])%list)
      /\ async_loads (trace (exec rt (loadModule modulePath tsConfig) w)) = [])
  /\ length (async_loads (trace (exec rt (loadModule modulePath tsConfig) w)))
     <= 1
  /\ (async_loads (trace (exec rt (loadModule modulePath tsConfig) w)) <> [] ->
      exists e code,
        In (Thrown e)
           (sync_loads (trace (exec rt (loadModule modulePath tsConfig) w)))
        /\ member e "code" = Normal code
        /\ strict_equals_string code "ERR_REQUIRE_ESM" = true).
Proof.
  intros Hmjs Hcjs.
  destruct (String.eqb_spec (extname modulePath) ".ts") as [Hts|Hts];
    [ rewrite (loadModule_ts _ _ Hts); unfold tsBranchWithoutRegistration
    | rewrite (loadModule_other _ _ Hmjs Hcjs Hts) ].
  all: run_cases.
  all: split;
    [ intros e' code' Hin Hcode Hneq; cbn in Hin; tidy;
      (split; [ reflexivity | split; [ | reflexivity ] ];
       first [ exists []; reflexivity | eexists (_ :: nil); reflexivity ])
    | split;
      [ cbn; lia
      | first
          [ intros Hne; exfalso; apply Hne; reflexivity
          | intros _; eexists; eexists;
            split; [ first [ left; reflexivity | right; left; reflexivity ]
                   | split; eassumption ]
          | intros _; no_code ] ] ].
Qed.

(** The catch block reads [e.code] before anything else: when the thrown
    value is [null] or [undefined] that read raises a TypeError, and it is the
    TypeError that [loadModule] throws.  No import is made. *)
Lemma loadModule_nullish_throw
  (modulePath tsConfig : string) (w : world S)
  (e : value) (rest : list (completion value)) :
  extname modulePath <> ".mjs" ->
  extname modulePath <> ".cjs" ->
  sync_loads (trace (exec rt (loadModule modulePath tsConfig) w))
  = Thrown e :: rest ->
  nullish e = true ->
  outcome (exec rt (loadModule modulePath tsConfig) w)
  = Thrown (TypeError_cannot_read e "code")
  /\ async_loads (trace (exec rt (loadModule modulePath tsConfig) w)) = [].
Proof.
  intros Hmjs Hcjs.
  assert (Hread : forall v, nullish v = true ->
                    member v "code" = Thrown (TypeError_cannot_read v "code")).
  { intros [| | | | | |props]; try discriminate; reflexivity. }
  destruct (String.eqb_spec (extname modulePath) ".ts") as [Hts|Hts];
    [ rewrite (loadModule_ts _ _ Hts); unfold tsBranchWithoutRegistration
    | rewrite (loadModule_other _ _ Hmjs Hcjs Hts) ].
  all: run_cases.
  all: intros Hloads Hnull; tidy.
  all: match goal with
       | H : nullish ?v = true |- _ => pose proof (Hread v H)
       end.
  all: split; congruence.
Qed.

(** C5.  In the '.ts' and default branches, when the synchronous load throws
    an error whose [code] is 'ERR_REQUIRE_ESM', [loadModule] makes no further
    synchronous load and one dynamic import, of [pathToFileURL(modulePath)],
    and its result is the "default" member of what that import produced. *)
Theorem loadModule_esm_fallback_returns_default
  (modulePath tsConfig : string) (w : world S)
  (e code : value) (rest : list (completion value)) :
  extname modulePath <> ".mjs" ->
  extname modulePath <> ".cjs" ->
  sync_loads (trace (exec rt (loadModule modulePath tsConfig) w))
  = Thrown e :: rest ->
  member e "code" = Normal code ->
  strict_equals_string code "ERR_REQUIRE_ESM" = true ->
  exists a,
    async_loads (trace (exec rt (loadModule modulePath tsConfig) w))
    = [(pathToFileURL modulePath, a)]
    /\ outcome (exec rt (loadModule modulePath tsConfig) w) = default_of a
    /\ rest = [].
Proof.
  intros Hmjs Hcjs.
  destruct (String.eqb_spec (extname modulePath) ".ts") as [Hts|Hts];
    [ rewrite (loadModule_ts _ _ Hts); unfold tsBranchWithoutRegistration
    | rewrite (loadModule_other _ _ Hmjs Hcjs Hts) ].
  all: run_cases.
  all: intros Hloads Hcode Hesm; tidy.
  all: eexists; split; [ reflexivity | split; [ cbn; congruence | reflexivity ] ].
Qed.

(** C6.  For a path whose extension is exactly '.mjs', the only call
    [loadModule] makes is the dynamic import of [pathToFileURL(modulePath)]:
    no synchronous load, no registration.  Its result is the "default"
    member of the imported namespace. *)
Theorem loadModule_mjs_only_imports
  (modulePath tsConfig : string) (w : world S) :
  extname modulePath = ".mjs" ->
  exists a,
    trace (exec rt (loadModule modulePath tsConfig) w)
    = [ObsImport (pathToFileURL modulePath) a]
    /\ outcome (exec rt (loadModule modulePath tsConfig) w) = default_of a.
Proof.
  intros Hext. rewrite (loadModule_mjs _ _ Hext). cbn.
  destruct (rt_import rt (pathToFileURL modulePath) (registrar w) (modules w))
    as [a s].
  exists a. destruct a as [ns|e|]; cbn; split; reflexivity.
Qed.

(** C7.  For a path with extension '.cjs', the only call [loadModule] makes
    is one synchronous load, and its result is the answer of that load as it
    is: the value, no "default" member read from it, or the error, with no
    fallback.  The registrar is left as it was. *)
Theorem loadModule_cjs_returns_require_result
  (modulePath tsConfig : string) (w : world S) :
  extname modulePath = ".cjs" ->
  exists a,
    trace (exec rt (loadModule modulePath tsConfig) w)
    = [ObsRequire modulePath a]
    /\ outcome (exec rt (loadModule modulePath tsConfig) w) = a
    /\ registrar (final (exec rt (loadModule modulePath tsConfig) w))
       = registrar w.
Proof.
  intros Hext. rewrite (loadModule_cjs _ _ Hext). cbn.
  destruct (rt_require rt modulePath (registrar w) (modules w)) as [a s].
  exists a. cbn. repeat split.
Qed.




(** C9.  For a path whose extension is not '.ts', [loadModule] makes no call
    to the registrar nor to a handle of it, leaves the registrar's state
    unchanged, and is the same program whatever [tsConfig] is. *)
Theorem loadModule_registrar_only_for_ts
  (modulePath tsConfig : string) (w : world S) :
  extname modulePath <> ".ts" ->
  registrar_calls (trace (exec rt (loadModule modulePath tsConfig) w)) = []
  /\ registrar (final (exec rt (loadModule modulePath tsConfig) w))
     = registrar w
  /\ forall tsConfig',
       loadModule modulePath tsConfig' = loadModule modulePath tsConfig.
Proof.
  intros Hts.
  destruct (registrar_free_exec rt _
              (loadModule_registrar_free modulePath tsConfig Hts) w)
    as [Hcalls Hframe].
  repeat split; try assumption.
  intros tsConfig'. apply String.eqb_neq in Hts.
  unfold loadModule. rewrite Hts. reflexivity.
Qed.


End Loader.

(** * The loader on a sample disk *)



(** C2, witness: [esm.config.ts] exits through the ESM fallback. *)
Lemma loadModule_ts_releases_registration_witness :
  extname (NodeLib := file_node) "esm.config.ts" = ".ts"
  /\ outcome (sample_run "esm.config.ts") <> Stuck
  /\ exists h mid,
       trace (sample_run "esm.config.ts")
       = (ObsRegister "tsconfig.json" h :: mid ++ [ObsUnregister h])%list
       /\ registrar_calls mid = []
       /\ registrar (final (sample_run "esm.config.ts")) = [].
Proof.
  assert (Hext : extname (NodeLib := file_node) "esm.config.ts" = ".ts")
    by reflexivity.
  assert (Hexit : outcome (sample_run "esm.config.ts") <> Stuck).
  { vm_compute. discriminate. }
  split; [exact Hext|]. split; [exact Hexit|].
  exact (loadModule_ts_releases_registration (lib := file_node)
           (disk_runtime sample_disk) "esm.config.ts" "tsconfig.json"
           empty_world Hext Hexit).
Defined.

(** C3, counterexample.  [webpack.config.js] exports an object with a
    "default" field: [loadModule] returns the whole object, the '.ts' branch
    without registration would return the field. *)
Lemma loadModule_default_case_keeps_wrapper_counterexample :
  ~ same_as_ts_branch_without_registration (lib := file_node)
      (disk_runtime sample_disk) "webpack.config.js" "tsconfig.json"
      empty_world.
Proof.
  intros Hclaim.
  assert (Hsame := Hclaim ltac:(vm_compute; discriminate)
                          ltac:(vm_compute; discriminate)
                          ltac:(vm_compute; discriminate)).
  vm_compute in Hsame. discriminate Hsame.
Qed.

(** C3, witness: [esm.config.js], whose synchronous load fails. *)
Lemma loadModule_default_case_vs_ts_case_witness :
  extname (NodeLib := file_node) "esm.config.js" <> ".mjs"
  /\ extname (NodeLib := file_node) "esm.config.js" <> ".cjs"
  /\ extname (NodeLib := file_node) "esm.config.js" <> ".ts"
  /\ sample_run "esm.config.js"
     = exec (disk_runtime sample_disk)
         (tsBranchWithoutRegistration (lib := file_node) "esm.config.js")
         empty_world.
Proof.
  assert (Hmjs : extname (NodeLib := file_node) "esm.config.js" <> ".mjs").
  { vm_compute. discriminate. }
  assert (Hcjs : extname (NodeLib := file_node) "esm.config.js" <> ".cjs").
  { vm_compute. discriminate. }
  assert (Hts : extname (NodeLib := file_node) "esm.config.js" <> ".ts").
  { vm_compute. discriminate. }
  repeat (split; [assumption|]).
  exact (loadModule_default_case_vs_ts_case (lib := file_node)
           (disk_runtime sample_disk) "esm.config.js" "tsconfig.json"
           empty_world Hmjs Hcjs Hts).
Defined.

(** X9, witness: [broken.config.ts] throws an error whose code is
    'ERR_SYNTAX'. *)
Lemma loadModule_rethrows_other_errors_witness :
  extname (NodeLib := file_node) "broken.config.ts" <> ".mjs"
  /\ extname (NodeLib := file_node) "broken.config.ts" <> ".cjs"
  /\ outcome (sample_run "broken.config.ts")
     = Thrown (VObject [("code", VString "ERR_SYNTAX")])
  /\ async_loads (trace (sample_run "broken.config.ts")) = [].
Proof.
  pose (e := VObject [("code", VString "ERR_SYNTAX")]).
  assert (Hmjs : extname (NodeLib := file_node) "broken.config.ts" <> ".mjs").
  { vm_compute. discriminate. }
  assert (Hcjs : extname (NodeLib := file_node) "broken.config.ts" <> ".cjs").
  { vm_compute. discriminate. }
  assert (Hin : In (Thrown e)
                   (sync_loads (trace (sample_run "broken.config.ts")))).
  { simpl. left. reflexivity. }
  assert (Hcode : member e "code" = Normal (VString "ERR_SYNTAX"))
    by reflexivity.
  assert (Hother : strict_equals_string (VString "ERR_SYNTAX") "ERR_REQUIRE_ESM"
                   = false) by reflexivity.
  split; [exact Hmjs|]. split; [exact Hcjs|].
  destruct (loadModule_rethrows_other_errors (lib := file_node)
              (disk_runtime sample_disk) "broken.config.ts" "tsconfig.json"
              empty_world Hmjs Hcjs) as [Hrethrow _].
  destruct (Hrethrow e (VString "ERR_SYNTAX") Hin Hcode Hother)
    as [Hout [_ Hnone]].
  split; [exact Hout | exact Hnone].
Defined.

(** C4 (a defect of the code).  Loading [throws.config.ts] throws [null]
    and loading [throws.config.js] throws [undefined].  Neither value is the
    format-mismatch signal, and the catch block ends in [throw e], yet
    [loadModule] does not rethrow them: its test reads [e.code] first, that
    read raises a TypeError on [null] and [undefined], and the TypeError is
    what [loadModule] throws. *)
Theorem loadModule_rethrow_misses_nullish_throw :
  (sync_loads (trace (edge_run "throws.config.ts")) = [Thrown VNull]
   /\ member VNull "code" = Thrown (TypeError_cannot_read VNull "code")
   /\ outcome (edge_run "throws.config.ts")
      = Thrown (TypeError_cannot_read VNull "code")
   /\ outcome (edge_run "throws.config.ts") <> Thrown VNull)
  /\ (sync_loads (trace (edge_run "throws.config.js")) = [Thrown VUndefined]
      /\ member VUndefined "code"
         = Thrown (TypeError_cannot_read VUndefined "code")
      /\ outcome (edge_run "throws.config.js")
         = Thrown (TypeError_cannot_read VUndefined "code")
      /\ outcome (edge_run "throws.config.js") <> Thrown VUndefined).
Proof.
  repeat split; try reflexivity.
  - vm_compute. discriminate.
  - vm_compute. discriminate.
Qed.

(** C5, witness: [esm.config.js] is an ES module behind a '.js' name. *)
Lemma loadModule_esm_fallback_returns_default_witness :
  extname (NodeLib := file_node) "esm.config.js" <> ".mjs"
  /\ extname (NodeLib := file_node) "esm.config.js" <> ".cjs"
  /\ sync_loads (trace (sample_run "esm.config.js")) = [Thrown ERR_REQUIRE_ESM]
  /\ exists a,
       async_loads (trace (sample_run "esm.config.js"))
       = [(pathToFileURL (NodeLib := file_node) "esm.config.js", a)]
       /\ outcome (sample_run "esm.config.js") = default_of a.
Proof.
  assert (Hmjs : extname (NodeLib := file_node) "esm.config.js" <> ".mjs").
  { vm_compute. discriminate. }
  assert (Hcjs : extname (NodeLib := file_node) "esm.config.js" <> ".cjs").
  { vm_compute. discriminate. }
  assert (Hloads : sync_loads (trace (sample_run "esm.config.js"))
                   = [Thrown ERR_REQUIRE_ESM]) by reflexivity.
  assert (Hcode : member ERR_REQUIRE_ESM "code"
                  = Normal (VString "ERR_REQUIRE_ESM")) by reflexivity.
  assert (Hesm : strict_equals_string (VString "ERR_REQUIRE_ESM")
                   "ERR_REQUIRE_ESM" = true) by reflexivity.
  split; [exact Hmjs|]. split; [exact Hcjs|]. split; [exact Hloads|].
  destruct (loadModule_esm_fallback_returns_default (lib := file_node)
              (disk_runtime sample_disk) "esm.config.js" "tsconfig.json"
              empty_world ERR_REQUIRE_ESM (VString "ERR_REQUIRE_ESM") []
              Hmjs Hcjs Hloads Hcode Hesm) as [a [Himport [Hout _]]].
  exists a. split; [exact Himport | exact Hout].
Defined.

(** C6, witness: [plugin.mjs]. *)
Lemma loadModule_mjs_only_imports_witness :
  extname (NodeLib := file_node) "plugin.mjs" = ".mjs"
  /\ exists a,
       trace (sample_run "plugin.mjs")
       = [ObsImport (pathToFileURL (NodeLib := file_node) "plugin.mjs") a]
       /\ outcome (sample_run "plugin.mjs") = default_of a.
Proof.
  assert (Hext : extname (NodeLib := file_node) "plugin.mjs" = ".mjs")
    by reflexivity.
  split; [exact Hext|].
  exact (loadModule_mjs_only_imports (lib := file_node)
           (disk_runtime sample_disk) "plugin.mjs" "tsconfig.json"
           empty_world Hext).
Defined.

(** C7, witness: [legacy.cjs] exports an object with a "default" field and
    gets it back whole. *)
Lemma loadModule_cjs_returns_require_result_witness :
  extname (NodeLib := file_node) "legacy.cjs" = ".cjs"
  /\ exists a,
       trace (sample_run "legacy.cjs") = [ObsRequire "legacy.cjs" a]
       /\ outcome (sample_run "legacy.cjs") = a
       /\ registrar (final (sample_run "legacy.cjs")) = [].
Proof.
  assert (Hext : extname (NodeLib := file_node) "legacy.cjs" = ".cjs")
    by reflexivity.
  split; [exact Hext|].
  exact (loadModule_cjs_returns_require_result (lib := file_node)
           (disk_runtime sample_disk) "legacy.cjs" "tsconfig.json"
           empty_world Hext).
Defined.

(** A disk answers by path alone: its modules do not change. *)
Lemma disk_module_unchanged (d : disk) (modulePath : string) :
  module_unchanged (lib := file_node) (disk_runtime d) modulePath.
Proof.
  split; intros reg s s'; simpl.
  - destruct (find_file modulePath d) as [[v|ns|e]|]; reflexivity.
  - destruct (find_url _ d) as [[v|ns|e]|]; reflexivity.
Qed.


(** On that runtime the registration matters: required outside any
    registration, [app.config.ts] does not parse. *)
Lemma ts_node_runtime_needs_registration :
  outcome (exec (ts_node_runtime sample_disk)
             (tsBranchWithoutRegistration (lib := file_node) "app.config.ts")
             fresh_world)
  = Thrown SyntaxError_unexpected_token.
Proof. reflexivity. Qed.


(** C9, witness: [webpack.config.js]. *)
Lemma loadModule_registrar_only_for_ts_witness :
  extname (NodeLib := file_node) "webpack.config.js" <> ".ts"
  /\ registrar_calls (trace (sample_run "webpack.config.js")) = []
  /\ registrar (final (sample_run "webpack.config.js")) = []
  /\ forall tsConfig',
       loadModule (lib := file_node) "webpack.config.js" tsConfig'
       = loadModule (lib := file_node) "webpack.config.js" "tsconfig.json".
Proof.
  assert (Hts : extname (NodeLib := file_node) "webpack.config.js" <> ".ts").
  { vm_compute. discriminate. }
  split; [exact Hts|].
  exact (loadModule_registrar_only_for_ts (lib := file_node)
           (disk_runtime sample_disk) "webpack.config.js" "tsconfig.json"
           empty_world Hts).
Defined.


(** * Further properties of the loader *)

Section LoaderEdges.

Context {lib : NodeLib} {S : Type} (rt : runtime S).

(** X1.  Whatever the extension and whatever the runtime answers, every
    synchronous load [loadModule] makes is of [modulePath] itself and every
    dynamic import, made through [loadEsmModule], is of
    [pathToFileURL(modulePath)]: no other module is ever loaded. *)
Theorem loadModule_loads_only_the_given_path
  (modulePath tsConfig : string) (w : world S) :
  Forall (eq modulePath)
    (required_paths (trace (exec rt (loadModule modulePath tsConfig) w)))
  /\ Forall (eq (pathToFileURL modulePath))
       (imported_urls (trace (exec rt (loadModule modulePath tsConfig) w))).
Proof.
  unfold loadModule, imported_urls.
  destruct (extname modulePath =? ".mjs");
    [|destruct (extname modulePath =? ".cjs");
      [|destruct (extname modulePath =? ".ts")]].
  all: run_cases.
  all: split; repeat constructor.
Qed.

(** X2.  [loadModule] does not retry: a run makes at most one dynamic import
    and at most one synchronous load, except in the '.ts' case, where the
    synchronous load may be made twice. *)
Theorem loadModule_call_bounds
  (modulePath tsConfig : string) (w : world S) :
  length (sync_loads (trace (exec rt (loadModule modulePath tsConfig) w)))
  <= (if extname modulePath =? ".ts" then 2 else 1)
  /\ length (async_loads (trace (exec rt (loadModule modulePath tsConfig) w)))
     <= 1.
Proof.
  unfold loadModule.
  destruct (extname modulePath =? ".mjs") eqn:Hmjs;
    [|destruct (extname modulePath =? ".cjs") eqn:Hcjs;
      [|destruct (extname modulePath =? ".ts") eqn:Hts]].
  1: apply String.eqb_eq in Hmjs; rewrite Hmjs.
  2: apply String.eqb_eq in Hcjs; rewrite Hcjs.
  all: run_cases.
  all: split; cbn; lia.
Qed.

(** X3.  In the '.ts' case [registerTsProject(tsConfig)] is the first call
    and the synchronous load of [modulePath] the second, and that load is
    answered by the runtime with the new registration among the active
    ones. *)
Theorem loadModule_ts_loads_under_registration
  (modulePath tsConfig : string) (w : world S) :
  extname modulePath = ".ts" ->
  let h := fst (register tsConfig (registrar w)) in
  let active := snd (register tsConfig (registrar w)) in
  In (h, tsConfig) active
  /\ exists rest,
       trace (exec rt (loadModule modulePath tsConfig) w)
       = ObsRegister tsConfig h
         :: ObsRequire modulePath
              (fst (rt_require rt modulePath active (modules w)))
         :: rest.
Proof.
  intros Hext h active. split.
  - left. reflexivity.
  - rewrite (loadModule_ts _ _ Hext). unfold tsBranchWithoutRegistration.
    subst h active. cbn.
    destruct (rt_require rt modulePath _ (modules w)) as [a s]. cbn.
    eexists. reflexivity.
Qed.

(** X4.  In the '.ts' case, a call that does not complete, because the
    synchronous load or the awaited import never does, has not reached its
    [finally] block: the handle has not been called and the registration
    made at the start is still installed. *)
Theorem loadModule_ts_pending_keeps_registration
  (modulePath tsConfig : string) (w : world S) :
  extname modulePath = ".ts" ->
  outcome (exec rt (loadModule modulePath tsConfig) w) = Stuck ->
  registrar_calls (trace (exec rt (loadModule modulePath tsConfig) w))
  = [ObsRegister tsConfig (fst (register tsConfig (registrar w)))]
  /\ registrar (final (exec rt (loadModule modulePath tsConfig) w))
     = snd (register tsConfig (registrar w)).
Proof.
  intros Hext. rewrite (loadModule_ts _ _ Hext).
  rewrite exec_registerTsProject. cbv zeta.
  rewrite exec_try_finally_call.
  set (w1 := {| registrar := _ ; modules := modules w |}).
  destruct (registrar_free_exec rt _
              (tsBranchWithoutRegistration_registrar_free modulePath) w1)
    as [Hquiet Hframe].
  set (rb := exec rt (tsBranchWithoutRegistration modulePath) w1) in *.
  destruct (outcome rb) eqn:Hout; cbn [outcome trace final registrar];
    intros Hstuck; try discriminate.
  split.
  - change (registrar_calls (ObsRegister tsConfig
                               (fst (register tsConfig (registrar w)))
                             :: trace rb))
      with (ObsRegister tsConfig (fst (register tsConfig (registrar w)))
            :: registrar_calls (trace rb)).
    rewrite Hquiet. reflexivity.
  - exact Hframe.
Qed.

(** X5.  In the '.ts' case, when the synchronous load succeeds with [null]
    or [undefined], reading its "default" raises a TypeError inside the
    [try]; the [catch] finds no 'ERR_REQUIRE_ESM' code on it and rethrows
    it.  [loadModule] throws that TypeError, after one load and no import. *)
Theorem loadModule_ts_nullish_module
  (modulePath tsConfig : string) (w : world S)
  (m : value) (rest : list (completion value)) :
  extname modulePath = ".ts" ->
  sync_loads (trace (exec rt (loadModule modulePath tsConfig) w))
  = Normal m :: rest ->
  nullish m = true ->
  outcome (exec rt (loadModule modulePath tsConfig) w)
  = Thrown (TypeError_cannot_read m "default")
  /\ rest = []
  /\ async_loads (trace (exec rt (loadModule modulePath tsConfig) w)) = [].
Proof.
  intros Hext.
  assert (Hread : forall v, nullish v = true ->
            member v "default" = Thrown (TypeError_cannot_read v "default")).
  { intros [| | | | | |props]; try discriminate; reflexivity. }
  assert (Hundefined : strict_equals_string VUndefined "ERR_REQUIRE_ESM" = false)
    by reflexivity.
  rewrite (loadModule_ts _ _ Hext). unfold tsBranchWithoutRegistration.
  run_cases.
  all: intros Hloads Hnull; tidy.
  all: match goal with
       | H : nullish ?v = true |- _ =>
           pose proof (Hread v H) as Hdefault;
           pose proof (member_thrown_has_no_code _ _ _ Hdefault) as Hcode
       end.
  all: first [ congruence | repeat split; congruence ].
Qed.

(** X7.  Once a dynamic import has been made, nothing else decides the
    result: whatever the extension, [loadModule] completes as the "default"
    member of what the import produced does, as the import's rejection when
    it rejects, and not at all while it is pending.  No truthiness test is
    applied on this path. *)
Theorem loadModule_import_decides_result
  (modulePath tsConfig : string) (w : world S)
  (u : URL) (a : completion value) :
  In (u, a)
     (async_loads (trace (exec rt (loadModule modulePath tsConfig) w))) ->
  outcome (exec rt (loadModule modulePath tsConfig) w) = default_of a.
Proof.
  unfold loadModule.
  destruct (extname modulePath =? ".mjs");
    [|destruct (extname modulePath =? ".cjs");
      [|destruct (extname modulePath =? ".ts")]].
  all: run_cases.
  all: intros Hin; tidy.
  all: cbn; congruence.
Qed.

(** X8.  In the '.ts' case, when the synchronous load succeeds with a module
    whose "default" is missing or falsy, [loadModule] evaluates
    [require(modulePath)] a second time: the path is required exactly
    twice. *)
Theorem loadModule_ts_falsy_default_requires_twice
  (modulePath tsConfig : string) (w : world S)
  (m d : value) (rest : list (completion value)) :
  extname modulePath = ".ts" ->
  sync_loads (trace (exec rt (loadModule modulePath tsConfig) w))
  = Normal m :: rest ->
  member m "default" = Normal d ->
  truthy d = false ->
  required_paths (trace (exec rt (loadModule modulePath tsConfig) w))
  = [modulePath; modulePath]
  /\ length rest = 1.
Proof.
  intros Hext. rewrite (loadModule_ts _ _ Hext).
  unfold tsBranchWithoutRegistration.
  run_cases.
  all: intros Hloads Hd Hfalsy; tidy.
  all: split; reflexivity.
Qed.

End LoaderEdges.

(** * The further properties on sample runs *)

(** X3, witness: [app.config.ts]. *)
Lemma loadModule_ts_loads_under_registration_witness :
  extname (NodeLib := file_node) "app.config.ts" = ".ts"
  /\ In (1, "tsconfig.json") [(1, "tsconfig.json")]
  /\ exists rest,
       trace (sample_run "app.config.ts")
       = ObsRegister "tsconfig.json" 1
         :: ObsRequire "app.config.ts"
              (Normal (VObject [("__esModule", VBool true);
                                ("default", VObject [("port", VNumber 4200)])]))
         :: rest.
Proof.
  assert (Hext : extname (NodeLib := file_node) "app.config.ts" = ".ts")
    by reflexivity.
  split; [exact Hext|].
  exact (loadModule_ts_loads_under_registration (lib := file_node)
           (disk_runtime sample_disk) "app.config.ts" "tsconfig.json"
           empty_world Hext).
Defined.

(** X4, witness: a '.ts' path whose import stays pending. *)
Lemma loadModule_ts_pending_keeps_registration_witness :
  outcome (exec pending_runtime
             (loadModule (lib := file_node) "slow.config.ts" "tsconfig.json")
             empty_world) = Stuck
  /\ registrar_calls
       (trace (exec pending_runtime
                 (loadModule (lib := file_node) "slow.config.ts" "tsconfig.json")
                 empty_world))
     = [ObsRegister "tsconfig.json" 1]
  /\ registrar
       (final (exec pending_runtime
                 (loadModule (lib := file_node) "slow.config.ts" "tsconfig.json")
                 empty_world))
     = [(1, "tsconfig.json")].
Proof.
  assert (Hext : extname (NodeLib := file_node) "slow.config.ts" = ".ts")
    by reflexivity.
  assert (Hstuck : outcome (exec pending_runtime
                      (loadModule (lib := file_node) "slow.config.ts"
                                  "tsconfig.json")
                      empty_world) = Stuck) by reflexivity.
  split; [exact Hstuck|].
  exact (loadModule_ts_pending_keeps_registration (lib := file_node)
           pending_runtime "slow.config.ts" "tsconfig.json" empty_world
           Hext Hstuck).
Defined.

(** X5, witness: [null.config.ts], whose exports are [null]. *)
Lemma loadModule_ts_nullish_module_witness :
  sync_loads (trace (edge_run "null.config.ts")) = [Normal VNull]
  /\ outcome (edge_run "null.config.ts")
     = Thrown (TypeError_cannot_read VNull "default")
  /\ async_loads (trace (edge_run "null.config.ts")) = [].
Proof.
  assert (Hext : extname (NodeLib := file_node) "null.config.ts" = ".ts")
    by reflexivity.
  assert (Hloads : sync_loads (trace (edge_run "null.config.ts"))
                   = [Normal VNull]) by reflexivity.
  assert (Hnull : nullish VNull = true) by reflexivity.
  split; [exact Hloads|].
  destruct (loadModule_ts_nullish_module (lib := file_node)
              (disk_runtime edge_disk) "null.config.ts" "tsconfig.json"
              empty_world VNull [] Hext Hloads Hnull) as [Hout [_ Hnone]].
  split; [exact Hout | exact Hnone].
Defined.

(** X6, witness: [throws.config.js], whose evaluation throws [undefined]. *)
Lemma loadModule_nullish_throw_witness :
  sync_loads (trace (edge_run "throws.config.js")) = [Thrown VUndefined]
  /\ outcome (edge_run "throws.config.js")
     = Thrown (TypeError_cannot_read VUndefined "code")
  /\ async_loads (trace (edge_run "throws.config.js")) = [].
Proof.
  assert (Hmjs : extname (NodeLib := file_node) "throws.config.js" <> ".mjs").
  { vm_compute. discriminate. }
  assert (Hcjs : extname (NodeLib := file_node) "throws.config.js" <> ".cjs").
  { vm_compute. discriminate. }
  assert (Hloads : sync_loads (trace (edge_run "throws.config.js"))
                   = [Thrown VUndefined]) by reflexivity.
  assert (Hnull : nullish VUndefined = true) by reflexivity.
  split; [exact Hloads|].
  exact (loadModule_nullish_throw (lib := file_node)
           (disk_runtime edge_disk) "throws.config.js" "tsconfig.json"
           empty_world VUndefined [] Hmjs Hcjs Hloads Hnull).
Defined.

(** X7, witness: [esm.config.ts], loaded through the fallback. *)
Lemma loadModule_import_decides_result_witness :
  In (pathToFileURL (NodeLib := file_node) "esm.config.ts",
      Normal (VObject [("default", VString "esm-ts")]))
     (async_loads (trace (sample_run "esm.config.ts")))
  /\ outcome (sample_run "esm.config.ts") = Normal (VString "esm-ts").
Proof.
  assert (Hin : In (pathToFileURL (NodeLib := file_node) "esm.config.ts",
                    Normal (VObject [("default", VString "esm-ts")]))
                   (async_loads (trace (sample_run "esm.config.ts")))).
  { simpl. left. reflexivity. }
  split; [exact Hin|].
  exact (loadModule_import_decides_result (lib := file_node)
           (disk_runtime sample_disk) "esm.config.ts" "tsconfig.json"
           empty_world _ _ Hin).
Defined.

(** X8, witness: [named.config.ts] has named exports only. *)
Lemma loadModule_ts_falsy_default_requires_twice_witness :
  member (VObject [("port", VNumber 8080)]) "default" = Normal VUndefined
  /\ required_paths (trace (sample_run "named.config.ts"))
     = ["named.config.ts"; "named.config.ts"].
Proof.
  pose (m := VObject [("port", VNumber 8080)]).
  assert (Hext : extname (NodeLib := file_node) "named.config.ts" = ".ts")
    by reflexivity.
  assert (Hloads : sync_loads (trace (sample_run "named.config.ts"))
                   = [Normal m; Normal m]) by reflexivity.
  assert (Hd : member m "default" = Normal VUndefined) by reflexivity.
  assert (Hfalsy : truthy VUndefined = false) by reflexivity.
  split; [exact Hd|].
  destruct (loadModule_ts_falsy_default_requires_twice (lib := file_node)
              (disk_runtime sample_disk) "named.config.ts" "tsconfig.json"
              empty_world m VUndefined [Normal m] Hext Hloads Hd Hfalsy)
    as [Htwice _].
  exact Htwice.
Defined.
